(** * improved_llm_example.py: the two text-generation runners and the entry point

    The script drives an external inference library (transformers, torch).
    Everything the library does is left open: it is an environment that
    answers requests over a world of its own.  The script itself is embedded
    as computations in a small monad that threads the interpreter state
    (the library's world and the module's global namespace), may raise a
    Python exception, and writes a trace of what it did: every request made
    to the library with its answer, every line printed, every call of a
    function defined by the script. *)

From Stdlib Require Import ZArith QArith.
From stdpp Require Import gmap strings list.

Set Warnings "-register-all".
Open Scope Z_scope.
Open Scope string_scope.
Open Scope list_scope.

(** ** Values *)

(** The functions the script defines with [def]. *)
Inductive deffn := UsePipeline | UseDirectModel.

(** Python values as far as the script builds or inspects them.  A float is
    recorded by the decimal fraction written in the source; no arithmetic is
    done on it.  A dict is an association list in insertion order, its keys
    strings.  Whatever else the library hands out (modules, pipelines,
    tokenizers, models, tensors, dicts keyed otherwise) is an opaque object
    known by a handle; the library alone gives it a behaviour. *)
Inductive pyval :=
| PNone
| PBool (b : bool)
| PInt (n : Z)
| PFloat (q : Q)
| PStr (s : string)
| PList (items : list pyval)
| PDict (entries : list (string * pyval))
| PFunc (f : deffn)
| PObj (handle : N).

Definition kwargs := list (string * pyval).

(** A raised exception: its class name, whether the class derives from
    [Exception] (KeyboardInterrupt, SystemExit and GeneratorExit derive from
    [BaseException] only), and what [str(e)] gives. *)
Record exn := Exn {
  exn_class : string;
  exn_is_Exception : bool;
  exn_str : string
}.

Definition result (A : Type) : Type := exn + A.

(** What the script asks of the library. *)
Inductive request :=
| RImport (module : string)                       (* import module *)
| RImportFrom (module : pyval) (name : string)    (* from module import name *)
| RGetAttr (obj : pyval) (name : string)          (* obj.name *)
| RGetItem (obj : pyval) (key : pyval)            (* obj[key], obj opaque *)
| RCall (callee : pyval) (args : list pyval) (kw : kwargs).

Inductive event :=
| EReq (r : request) (answer : result pyval)
| EEnter (cm : pyval)                             (* cm.__enter__() *)
| EExit (cm : pyval)                              (* cm.__exit__(...) *)
| EInvoke (f : deffn)                             (* a def of the script is called *)
| EPrint (text : string).                         (* text written by print *)

Definition trace := list event.

Definition nl : string := String (Ascii.ascii_of_nat 10) EmptyString.

(** ** Exceptions the interpreter raises by itself *)

Definition NameError (name : string) : exn :=
  Exn "NameError" true ("name '" +:+ name +:+ "' is not defined").
Definition IndexError (msg : string) : exn := Exn "IndexError" true msg.
Definition KeyError (key : string) : exn := Exn "KeyError" true key.
Definition TypeError (msg : string) : exn := Exn "TypeError" true msg.

(** ** The library *)

(** [lib_respond] answers a request, with a value or by raising, and moves
    the world on.  [lib_enter] and [lib_exit] are the two ends of the
    context [torch.no_grad()]: they save and restore the gradient mode, do
    not raise, and [__exit__] returns [None], so that an exception of the
    body is never swallowed.  [lib_str] is [str(v)] for a value that is not
    itself a string. *)
Record library (W : Type) := Library {
  lib_respond : request -> W -> result pyval * W;
  lib_enter : pyval -> W -> W;
  lib_exit : pyval -> W -> W;
  lib_str : W -> pyval -> string
}.
Arguments Library {W}.
Arguments lib_respond {W}.
Arguments lib_enter {W}.
Arguments lib_exit {W}.
Arguments lib_str {W}.

(** How the script was started: the value of [__name__], the argument
    vector and the process environment. *)
Record invocation := Invocation {
  inv_name : string;
  inv_argv : list string;
  inv_environ : list (string * string)
}.

Section Script.

Context {W : Type}.
Variable L : library W.

Record state := State {
  st_world : W;
  st_globals : gmap string pyval
}.

(** ** The monad *)

Definition M (A : Type) : Type := state -> result A * state * trace.

Definition ret {A} (a : A) : M A := fun s => (inr a, s, []).

Definition bind {A B} (c : M A) (k : A -> M B) : M B := fun s =>
  match c s with
  | (inr a, s1, t1) => let '(r, s2, t2) := k a s1 in (r, s2, t1 ++ t2)
  | (inl e, s1, t1) => (inl e, s1, t1)
  end.

Definition raise {A} (e : exn) : M A := fun s => (inl e, s, []).

Definition tell (ev : event) : M unit := fun s => (inr tt, s, [ev]).

Definition outcome {A} (x : result A * state * trace) : result A := x.1.1.
Definition final {A} (x : result A * state * trace) : state := x.1.2.
Definition events {A} (x : result A * state * trace) : trace := x.2.

Declare Scope py_scope.
Delimit Scope py_scope with py.
Notation "x <- c1 ;; c2" := (bind c1 (fun x => c2))
  (at level 100, c1 at next level, right associativity) : py_scope.
Notation "c1 ;; c2" := (bind c1 (fun _ => c2))
  (at level 100, right associativity) : py_scope.
Open Scope py_scope.

(** A request to the library: the answer is logged, the world moves on. *)
Definition ask (r : request) : M pyval := fun s =>
  let '(a, w) := lib_respond L r (st_world s) in
  (a, State w (st_globals s), [EReq r a]).

Definition load_global (name : string) : M pyval := fun s =>
  match st_globals s !! name with
  | Some v => (inr v, s, [])
  | None => (inl (NameError name), s, [])
  end.

Definition store_global (name : string) (v : pyval) : M unit := fun s =>
  (inr tt, State (st_world s) (<[name := v]> (st_globals s)), []).

(** ** Builtins *)

Definition py_str (w : W) (v : pyval) : string :=
  match v with
  | PStr s => s
  | _ => lib_str L w v
  end.

Fixpoint join_sp (l : list string) : string :=
  match l with
  | [] => ""
  | [x] => x
  | x :: rest => x +:+ " " +:+ join_sp rest
  end.

(** [print(a, b, ...)]: the arguments' [str], separated by one space, and a
    newline. *)
Definition print (args : list pyval) : M unit := fun s =>
  (inr tt, s, [EPrint (join_sp (map (py_str (st_world s)) args) +:+ nl)]).

Definition type_name (v : pyval) : string :=
  match v with
  | PNone => "NoneType" | PBool _ => "bool" | PInt _ => "int"
  | PFloat _ => "float" | PStr _ => "str" | PList _ => "list"
  | PDict _ => "dict" | PFunc _ => "function" | PObj _ => "object"
  end.

Definition not_subscriptable (v : pyval) : exn :=
  TypeError ("'" +:+ type_name v +:+ "' object is not subscriptable").

(** Python's index normalisation: [i] counts from the end when negative. *)
Definition norm_index (len : nat) (i : Z) : option nat :=
  if ((0 <=? i) && (i <? Z.of_nat len))%Z then Some (Z.to_nat i)
  else if ((- Z.of_nat len <=? i) && (i <? 0))%Z
       then Some (Z.to_nat (Z.of_nat len + i))
       else None.

Fixpoint dict_get (k : string) (d : list (string * pyval)) : option pyval :=
  match d with
  | [] => None
  | (k', v) :: rest => if String.eqb k k' then Some v else dict_get k rest
  end.

Fixpoint string_nth (n : nat) (s : string) : option string :=
  match s, n with
  | EmptyString, _ => None
  | String c _, O => Some (String c EmptyString)
  | String _ rest, S m => string_nth m rest
  end.

(** [v[i]] for an integer literal [i]. *)
Definition subscript_int (v : pyval) (i : Z) : M pyval :=
  match v with
  | PList items =>
      match norm_index (length items) i with
      | Some n =>
          match items !! n with
          | Some x => ret x
          | None => raise (IndexError "list index out of range")
          end
      | None => raise (IndexError "list index out of range")
      end
  | PStr s =>
      match norm_index (String.length s) i with
      | Some n =>
          match string_nth n s with
          | Some c => ret (PStr c)
          | None => raise (IndexError "string index out of range")
          end
      | None => raise (IndexError "string index out of range")
      end
  | PDict _ => raise (KeyError "0")
  | PObj _ => ask (RGetItem v (PInt i))
  | _ => raise (not_subscriptable v)
  end.

(** [v[k]] for a string literal [k]. *)
Definition subscript_str (v : pyval) (k : string) : M pyval :=
  match v with
  | PDict d =>
      match dict_get k d with
      | Some x => ret x
      | None => raise (KeyError ("'" +:+ k +:+ "'"))
      end
  | PList _ => raise (TypeError "list indices must be integers or slices, not str")
  | PStr _ => raise (TypeError "string indices must be integers, not 'str'")
  | PObj _ => ask (RGetItem v (PStr k))
  | _ => raise (not_subscriptable v)
  end.

(** ** Statements *)

(** [with cm: body], for a context manager that does not swallow
    exceptions: [__exit__] runs however the body ends, and the body's
    outcome stands. *)
Definition with_ctx {A} (cm : pyval) (body : M A) : M A := fun s =>
  let s0 := State (lib_enter L cm (st_world s)) (st_globals s) in
  let '(r, s1, t) := body s0 in
  (r, State (lib_exit L cm (st_world s1)) (st_globals s1),
   EEnter cm :: t ++ [EExit cm]).

(** [try: body / except Exception as e: handler e].  An exception whose
    class does not derive from [Exception] passes through. *)
Definition try_except {A} (body : M A) (handler : exn -> M A) : M A := fun s =>
  match body s with
  | (inl e, s1, t1) =>
      if exn_is_Exception e
      then let '(r, s2, t2) := handler e s1 in (r, s2, t1 ++ t2)
      else (inl e, s1, t1)
  | done => done
  end.

(** ** The two runners *)

Definition use_pipeline : M unit :=
  print [PStr "=== Pipeline-Ansatz ==="] ;;
  let messages :=
    PList [PDict [("role", PStr "user"); ("content", PStr "Who are you?")]] in
  pipeline <- load_global "pipeline" ;;
  pipe <- ask (RCall pipeline [PStr "text-generation"]
                 [("model", PStr "unsloth/DeepSeek-R1-Distill-Llama-8B")]) ;;
  result <- ask (RCall pipe [messages]
                   [("max_length", PInt 100); ("do_sample", PBool true);
                    ("temperature", PFloat (7 # 10))]) ;;
  print [PStr "Ergebnis:"] ;;
  first <- subscript_int result 0 ;;
  text <- subscript_str first "generated_text" ;;
  print [text] ;;
  print [PStr nl].

Definition use_direct_model : M unit :=
  print [PStr "=== Direkter Modell-Ansatz ==="] ;;
  AutoTokenizer <- load_global "AutoTokenizer" ;;
  from_pretrained <- ask (RGetAttr AutoTokenizer "from_pretrained") ;;
  tokenizer <- ask (RCall from_pretrained
                      [PStr "unsloth/DeepSeek-R1-Distill-Llama-8B"] []) ;;
  AutoModelForCausalLM <- load_global "AutoModelForCausalLM" ;;
  from_pretrained <- ask (RGetAttr AutoModelForCausalLM "from_pretrained") ;;
  model <- ask (RCall from_pretrained
                  [PStr "unsloth/DeepSeek-R1-Distill-Llama-8B"] []) ;;
  let prompt := PStr "Who are you?" in
  inputs <- ask (RCall tokenizer [prompt] [("return_tensors", PStr "pt")]) ;;
  torch <- load_global "torch" ;;
  no_grad <- ask (RGetAttr torch "no_grad") ;;
  cm <- ask (RCall no_grad [] []) ;;
  output <- with_ctx cm
    (generate <- ask (RGetAttr model "generate") ;;
     input_ids <- subscript_str inputs "input_ids" ;;
     eos_token_id <- ask (RGetAttr tokenizer "eos_token_id") ;;
     ask (RCall generate [input_ids]
            [("max_length", PInt 100); ("do_sample", PBool true);
             ("temperature", PFloat (7 # 10));
             ("pad_token_id", eos_token_id)])) ;;
  decode <- ask (RGetAttr tokenizer "decode") ;;
  first <- subscript_int output 0 ;;
  generated_text <- ask (RCall decode [first]
                           [("skip_special_tokens", PBool true)]) ;;
  print [PStr "Eingabe:"; prompt] ;;
  print [PStr "Generierte Antwort:"; generated_text].

(** ** The module body *)

Definition body_of (f : deffn) : M unit :=
  match f with
  | UsePipeline => use_pipeline
  | UseDirectModel => use_direct_model
  end.

(** [name()] at module level: the name is looked up in the globals when the
    call is made.  A function of the script runs its body; any other value
    bound to the name (a stand-in put there by a test) is called through
    the environment. *)
Definition call_global (name : string) : M unit :=
  f <- load_global name ;;
  match f with
  | PFunc d => tell (EInvoke d) ;; body_of d
  | _ => _ <- ask (RCall f [] []) ;; ret tt
  end.

(** The block under [if __name__ == "__main__":]. *)
Definition entry_point : M unit :=
  print [PStr ("LLM-Beispiel mit DeepSeek-R1-Distill-Llama-8B" +:+ nl)] ;;
  try_except (call_global "use_pipeline")
    (fun e => print [PStr ("Fehler beim Pipeline-Ansatz: " +:+ exn_str e)]) ;;
  try_except (call_global "use_direct_model")
    (fun e => print [PStr ("Fehler beim direkten Modell-Ansatz: " +:+ exn_str e)]).

(** [from module import n1, n2, ...]: the names are fetched and bound one
    after the other. *)
Fixpoint bind_names (m : pyval) (names : list string) : M unit :=
  match names with
  | [] => ret tt
  | n :: rest =>
      v <- ask (RImportFrom m n) ;;
      store_global n v ;;
      bind_names m rest
  end.

Definition import_from (module : string) (names : list string) : M unit :=
  m <- ask (RImport module) ;;
  bind_names m names.

Definition import_module (module : string) : M unit :=
  m <- ask (RImport module) ;;
  store_global module m.

(** The whole file, top to bottom. *)
Definition run_module (inv : invocation) : M unit :=
  import_from "transformers" ["pipeline"] ;;
  store_global "use_pipeline" (PFunc UsePipeline) ;;
  import_from "transformers" ["AutoTokenizer"; "AutoModelForCausalLM"] ;;
  import_module "torch" ;;
  store_global "use_direct_model" (PFunc UseDirectModel) ;;
  if String.eqb (inv_name inv) "__main__" then entry_point else ret tt.

End Script.

Arguments state W : clear implicits.
Arguments State {W}.
Arguments st_world {W}.
Arguments st_globals {W}.
Arguments M W A : clear implicits.

(** ** Reading a trace *)

(** The text that reached standard output. *)
Fixpoint stdout (t : trace) : string :=
  match t with
  | [] => ""
  | EPrint text :: rest => text +:+ stdout rest
  | _ :: rest => stdout rest
  end.

(** The functions of the script that were called, in order. *)
Fixpoint invoked (t : trace) : list deffn :=
  match t with
  | [] => []
  | EInvoke f :: rest => f :: invoked rest
  | _ :: rest => invoked rest
  end.

(** The requests made to the library, in order. *)
Fixpoint requests (t : trace) : list request :=
  match t with
  | [] => []
  | EReq r _ :: rest => r :: requests rest
  | _ :: rest => requests rest
  end.

Definition is_import (ev : event) : bool :=
  match ev with
  | EReq (RImport _) _ | EReq (RImportFrom _ _) _ => true
  | _ => false
  end.

(** ** A stand-in library

    A small environment to run the script against: every object is a
    handle, the world counts the requests answered, and construction of
    the pipeline or loading of the model can be told to raise. *)
Module Stub.

Definition transformers := PObj 1.
Definition torch := PObj 2.
Definition pipeline := PObj 10.
Definition AutoTokenizer := PObj 11.
Definition AutoModelForCausalLM := PObj 12.
Definition pipe := PObj 20.
Definition tokenizer_loader := PObj 21.
Definition model_loader := PObj 22.
Definition tokenizer := PObj 30.
Definition model := PObj 31.
Definition no_grad := PObj 40.
Definition grad_ctx := PObj 41.
Definition generate := PObj 50.
Definition decode := PObj 51.
Definition input_ids := PObj 60.
Definition attention_mask := PObj 61.
Definition output := PObj 70.
Definition first_sequence := PObj 71.
Definition eos_token_id := PInt 128001.
Definition answer := "I am a stand-in.".

Definition AttributeError (name : string) : exn :=
  Exn "AttributeError" true ("no attribute '" +:+ name +:+ "'").

Definition attr (h : N) (name : string) : result pyval :=
  if decide (h = 1%N) then
    if String.eqb name "pipeline" then inr pipeline
    else if String.eqb name "AutoTokenizer" then inr AutoTokenizer
    else if String.eqb name "AutoModelForCausalLM" then inr AutoModelForCausalLM
    else inl (AttributeError name)
  else if decide (h = 2%N) then
    if String.eqb name "no_grad" then inr no_grad else inl (AttributeError name)
  else if decide (h = 11%N) then
    if String.eqb name "from_pretrained" then inr tokenizer_loader
    else inl (AttributeError name)
  else if decide (h = 12%N) then
    if String.eqb name "from_pretrained" then inr model_loader
    else inl (AttributeError name)
  else if decide (h = 30%N) then
    if String.eqb name "eos_token_id" then inr eos_token_id
    else if String.eqb name "decode" then inr decode
    else inl (AttributeError name)
  else if decide (h = 31%N) then
    if String.eqb name "generate" then inr generate else inl (AttributeError name)
  else inl (AttributeError name).

Definition call (fail_pipeline fail_model : option exn) (h : N) : result pyval :=
  if decide (h = 10%N) then
    match fail_pipeline with Some e => inl e | None => inr pipe end
  else if decide (h = 20%N) then
    inr (PList [PDict [("generated_text", PStr answer)]])
  else if decide (h = 21%N) then inr tokenizer
  else if decide (h = 22%N) then
    match fail_model with Some e => inl e | None => inr model end
  else if decide (h = 30%N) then
    inr (PDict [("input_ids", input_ids); ("attention_mask", attention_mask)])
  else if decide (h = 40%N) then inr grad_ctx
  else if decide (h = 50%N) then inr output
  else if decide (h = 51%N) then inr (PStr answer)
  else inl (TypeError "object is not callable").

Definition respond (fail_pipeline fail_model : option exn)
    (r : request) (w : nat) : result pyval * nat :=
  (match r with
   | RImport m =>
       if String.eqb m "transformers" then inr transformers
       else if String.eqb m "torch" then inr torch
       else inl (Exn "ModuleNotFoundError" true ("No module named '" +:+ m +:+ "'"))
   | RImportFrom (PObj h) n | RGetAttr (PObj h) n => attr h n
   | RGetItem (PObj 70) (PInt 0) => inr first_sequence
   | RCall (PObj h) _ _ => call fail_pipeline fail_model h
   | _ => inl (TypeError "unsupported operand")
   end, S w).

Definition lib (fail_pipeline fail_model : option exn) : library nat :=
  Library (respond fail_pipeline fail_model) (fun _ w => w) (fun _ w => w)
    (fun _ _ => "<object>").

Definition start : state nat := State 0%nat ∅.

Definition as_script : invocation := Invocation "__main__" ["improved_llm_example.py"] [].
Definition as_import : invocation := Invocation "improved_llm_example" ["test.py"] [].

Definition OSError (msg : string) : exn := Exn "OSError" true msg.

End Stub.

(** ** What the specification names *)

Definition model_id : string := "unsloth/DeepSeek-R1-Distill-Llama-8B".
Definition prompt : string := "Who are you?".

(** The single user message handed to the pipeline. *)
Definition messages : pyval :=
  PList [PDict [("role", PStr "user"); ("content", PStr prompt)]].

(** Maximum length, sampling switched on, temperature. *)
Definition generation_parameters : kwargs :=
  [("max_length", PInt 100); ("do_sample", PBool true);
   ("temperature", PFloat (7 # 10))].


(** The names the module body binds: three imported from transformers,
    the module torch, and the two functions. *)
Definition module_names : list string :=
  ["pipeline"; "use_pipeline"; "AutoTokenizer"; "AutoModelForCausalLM";
   "torch"; "use_direct_model"].


(** What the handler of a failure boundary prints for an outcome. *)
Definition report (prefix : string) (r : result unit) : trace :=
  match r with
  | inl e =>
      if exn_is_Exception e then [EPrint (prefix +:+ exn_str e +:+ nl)] else []
  | inr _ => []
  end.

(** An exception answered by the library is the outcome of the
    computation. *)
Definition propagates {W A} (c : M W A) : Prop :=
  forall (s : state W) (r : request) (e : exn),
    In (EReq r (inl e)) (events (c s)) -> outcome (c s) = inl e.

(** The computation rebinds no global and calls no function of the
    script. *)
Definition plain {W A} (c : M W A) : Prop :=
  forall s : state W,
    st_globals (final (c s)) = st_globals s /\ invoked (events (c s)) = [].

(** ** Stand-in states *)

(** The globals as the imports of the module leave them under the stand-in
    library. *)
Definition stub_globals : gmap string pyval :=
  <["torch" := Stub.torch]>
    (<["AutoModelForCausalLM" := Stub.AutoModelForCausalLM]>
       (<["AutoTokenizer" := Stub.AutoTokenizer]>
          {["pipeline" := Stub.pipeline]})).

(** The globals once the module body has run against the stand-in. *)
Definition stub_loaded : gmap string pyval :=
  <["use_direct_model" := PFunc UseDirectModel]>
    (<["use_pipeline" := PFunc UsePipeline]> stub_globals).

(** The globals [g] after the module's imports and [def]s, given what
    the imports returned. *)
Definition module_globals (g : gmap string pyval)
    (pipeline AutoTokenizer AutoModelForCausalLM torch : pyval)
    : gmap string pyval :=
  <["use_direct_model" := PFunc UseDirectModel]>
    (<["torch" := torch]>
       (<["AutoModelForCausalLM" := AutoModelForCausalLM]>
          (<["AutoTokenizer" := AutoTokenizer]>
             (<["use_pipeline" := PFunc UsePipeline]>
                (<["pipeline" := pipeline]> g))))).

(** ** Further readings of a trace *)

(** The contexts entered, and the contexts left, in order. *)
Fixpoint entered (t : trace) : list pyval :=
  match t with
  | [] => []
  | EEnter cm :: rest => cm :: entered rest
  | _ :: rest => entered rest
  end.

Fixpoint exited (t : trace) : list pyval :=
  match t with
  | [] => []
  | EExit cm :: rest => cm :: exited rest
  | _ :: rest => exited rest
  end.

(** How many calls went to the library. *)
Fixpoint calls (t : trace) : nat :=
  match t with
  | [] => 0%nat
  | EReq (RCall _ _ _) _ :: rest => S (calls rest)
  | _ :: rest => calls rest
  end.

(** Every event of every run of [c] satisfies [P]. *)
Definition always {W A} (P : event -> bool) (c : M W A) : Prop :=
  forall s : state W, Forall (fun ev => P ev = true) (events (c s)).

Definition no_import (ev : event) : bool := negb (is_import ev).

(** The attribute names and subscript keys written in the two runners. *)
Definition runner_attributes : list string :=
  ["from_pretrained"; "no_grad"; "generate"; "eos_token_id"; "decode"].

Definition runner_key (k : pyval) : bool :=
  match k with
  | PInt 0 => true
  | PStr name => String.eqb name "generated_text" || String.eqb name "input_ids"
  | _ => false
  end.

(** An event a runner may produce: no import, no call of a function of the
    script, and reads of library objects only at the names and keys above. *)
Definition runner_event (ev : event) : bool :=
  match ev with
  | EReq (RGetAttr _ name) _ => bool_decide (name ∈ runner_attributes)
  | EReq (RGetItem _ k) _ => runner_key k
  | EReq (RCall _ _ _) _ => true
  | EReq _ _ => false
  | EInvoke _ => false
  | _ => true
  end.

(** A stand-in library whose pipeline returns a chosen value; everything
    else is answered as by [Stub.lib]. *)
Module Odd.

Definition respond (res : pyval) (r : request) (w : nat) : result pyval * nat :=
  match r with
  | RCall (PObj 20) _ _ => (inr res, S w)
  | _ => Stub.respond None None r w
  end.

Definition lib (res : pyval) : library nat :=
  Library (respond res) (fun _ w => w) (fun _ w => w) (fun _ _ => "<object>").



(** A stand-in environment in which torch is not installed. *)
Definition ModuleNotFoundError (m : string) : exn :=
  Exn "ModuleNotFoundError" true ("No module named '" +:+ m +:+ "'").

Definition respond_without_torch (r : request) (w : nat) : result pyval * nat :=
  match r with
  | RImport m =>
      if String.eqb m "torch" then (inl (ModuleNotFoundError m), S w)
      else Stub.respond None None r w
  | _ => Stub.respond None None r w
  end.

Definition without_torch : library nat :=
  Library respond_without_torch (fun _ w => w) (fun _ w => w)
    (fun _ _ => "<object>").

End Odd.

(** * Properties *)

Ltac unfold_py :=
  unfold use_pipeline, use_direct_model, entry_point, call_global, body_of,
    try_except, with_ctx, print, ask,
    load_global, store_global, tell, bind, ret, raise.

(** Use an answer of the library that a hypothesis gives. *)
Ltac answer_by H :=
  cbn [st_world st_globals]; rewrite H; cbv beta iota zeta;
  cbn [st_world st_globals].

(** Split on the next answer of the library that is still open. *)
Ltac split_request L :=
  match goal with
  | |- context [lib_respond L ?r ?w] =>
      destruct (lib_respond L r w) as [[?|?] ?]
  | |- context [subscript_int L ?v ?i ?s] =>
      destruct (subscript_int L v i s) as [[[?|?] ?] ?]
  | |- context [subscript_str L ?v ?k ?s] =>
      destruct (subscript_str L v k s) as [[[?|?] ?] ?]
  end.

Ltac split_global :=
  match goal with
  | |- context [@lookup string pyval _ _ ?n ?g] =>
      destruct (@lookup string pyval _ _ n g)
  end.

Ltac split_requests L :=
  repeat (split_request L; cbv beta iota zeta; cbn [st_world st_globals]).

Ltac split_answers L :=
  repeat (first [split_request L | split_global];
          cbv beta iota zeta; cbn [st_world st_globals]).

(** Bring a trace into the shape of a plain list. *)
Ltac tidy_trace :=
  cbn [app report]; rewrite ?app_nil_r, <- ?app_assoc; cbn [app];
  try reflexivity.

Section Builtins.

Context {W : Type} (L : library W).

Lemma norm_index_first (n : nat) : norm_index (S n) 0 = Some 0%nat.
Proof.
  unfold norm_index.
  replace (0 <? Z.of_nat (S n))%Z with true by (symmetry; apply Z.ltb_lt; lia).
  reflexivity.
Qed.

(** [l[0]] of a list that has a first element is that element. *)
Lemma subscript_int_first (x : pyval) (rest : list pyval) :
  subscript_int L (PList (x :: rest)) 0 = ret x.
Proof.
  unfold subscript_int. cbn [length]. rewrite norm_index_first. reflexivity.
Qed.

(** [d[k]] of a dict that has the key is the value stored under it. *)
Lemma subscript_str_present (d : list (string * pyval)) (k : string) (v : pyval) :
  dict_get k d = Some v -> subscript_str L (PDict d) k = ret v.
Proof. intros H. unfold subscript_str. rewrite H. reflexivity. Qed.

End Builtins.

Section Pipeline.

Context {W : Type} (L : library W).

(** C5.  When the global [pipeline] is bound, construction answers with a
    callable [pipe], and [pipe] answers with a list whose first element is a
    dict that maps 'generated_text' to a string [text], then [use_pipeline]
    returns normally and prints, after its two headings, exactly [text]
    (with print's newline), followed by the closing blank lines. *)
Theorem use_pipeline_prints_generated_text
    (w0 w1 w2 : W) (g : gmap string pyval) (pipeline pipe : pyval)
    (entries : list (string * pyval)) (others : list pyval) (text : string) :
  g !! "pipeline" = Some pipeline ->
  lib_respond L (RCall pipeline [PStr "text-generation"]
                   [("model", PStr model_id)]) w0 = (inr pipe, w1) ->
  lib_respond L (RCall pipe [messages] generation_parameters) w1
    = (inr (PList (PDict entries :: others)), w2) ->
  dict_get "generated_text" entries = Some (PStr text) ->
  use_pipeline L (State w0 g)
    = (inr tt, State w2 g,
       [EPrint ("=== Pipeline-Ansatz ===" +:+ nl);
        EReq (RCall pipeline [PStr "text-generation"] [("model", PStr model_id)])
             (inr pipe);
        EReq (RCall pipe [messages] generation_parameters)
             (inr (PList (PDict entries :: others)));
        EPrint ("Ergebnis:" +:+ nl);
        EPrint (text +:+ nl);
        EPrint (nl +:+ nl)]).
Proof.
  intros Hg Hpipe Hres Htext.
  unfold model_id, messages, prompt, generation_parameters in *.
  unfold_py.
  answer_by Hg. answer_by Hpipe. answer_by Hres.
  rewrite subscript_int_first. unfold ret.
  rewrite (subscript_str_present L _ _ _ Htext). reflexivity.
Qed.

End Pipeline.

(** A run of [use_pipeline] against the stand-in library. *)
Lemma use_pipeline_prints_generated_text_witness :
  use_pipeline (Stub.lib None None)
      (State 0%nat {["pipeline" := Stub.pipeline]})
    = (inr tt, State 2%nat {["pipeline" := Stub.pipeline]},
       [EPrint ("=== Pipeline-Ansatz ===" +:+ nl);
        EReq (RCall Stub.pipeline [PStr "text-generation"]
                [("model", PStr model_id)]) (inr Stub.pipe);
        EReq (RCall Stub.pipe [messages] generation_parameters)
             (inr (PList [PDict [("generated_text", PStr Stub.answer)]]));
        EPrint ("Ergebnis:" +:+ nl);
        EPrint (Stub.answer +:+ nl);
        EPrint (nl +:+ nl)]).
Proof.
  apply (use_pipeline_prints_generated_text (Stub.lib None None)
           0%nat 1%nat 2%nat _ Stub.pipeline Stub.pipe
           [("generated_text", PStr Stub.answer)] [] Stub.answer);
    reflexivity.
Defined.

Section DirectModel.

Context {W : Type} (L : library W).

(** A run in which the library answers every step.  The worlds [w0] to
    [w14] are the library's states between the steps. *)
Variables (g : gmap string pyval).
Variables (w0 w1 w2 w3 w4 w5 w6 w7 w8 w9 w10 w11 w12 w13 w14 : W).
Variables (AutoTokenizer AutoModelForCausalLM torch : pyval).
Variables (load_tokenizer load_model tokenizer model inputs : pyval).
Variables (no_grad cm generate input_ids eos_token_id output : pyval).
Variables (decode first generated_text : pyval).
Variables (t_ids t_first : trace).
Variables (pipeline : pyval).

Hypothesis pipeline_function : g !! "pipeline" = Some pipeline.
Hypothesis tokenizer_class : g !! "AutoTokenizer" = Some AutoTokenizer.
Hypothesis tokenizer_loader :
  lib_respond L (RGetAttr AutoTokenizer "from_pretrained") w0
    = (inr load_tokenizer, w1).
Hypothesis tokenizer_loaded :
  lib_respond L (RCall load_tokenizer [PStr model_id] []) w1
    = (inr tokenizer, w2).
Hypothesis model_class :
  g !! "AutoModelForCausalLM" = Some AutoModelForCausalLM.
Hypothesis model_loader :
  lib_respond L (RGetAttr AutoModelForCausalLM "from_pretrained") w2
    = (inr load_model, w3).
Hypothesis model_loaded :
  lib_respond L (RCall load_model [PStr model_id] []) w3 = (inr model, w4).
Hypothesis prompt_encoded :
  lib_respond L (RCall tokenizer [PStr prompt] [("return_tensors", PStr "pt")]) w4
    = (inr inputs, w5).
Hypothesis torch_module : g !! "torch" = Some torch.
Hypothesis no_grad_found :
  lib_respond L (RGetAttr torch "no_grad") w5 = (inr no_grad, w6).
Hypothesis no_grad_made :
  lib_respond L (RCall no_grad [] []) w6 = (inr cm, w7).
Hypothesis generate_found :
  lib_respond L (RGetAttr model "generate") (lib_enter L cm w7)
    = (inr generate, w8).
Hypothesis input_ids_read :
  subscript_str L inputs "input_ids" (State w8 g)
    = (inr input_ids, State w9 g, t_ids).
Hypothesis eos_read :
  lib_respond L (RGetAttr tokenizer "eos_token_id") w9
    = (inr eos_token_id, w10).
Hypothesis generated :
  lib_respond L
    (RCall generate [input_ids]
       (generation_parameters ++ [("pad_token_id", eos_token_id)])) w10
    = (inr output, w11).
Hypothesis decode_found :
  lib_respond L (RGetAttr tokenizer "decode") (lib_exit L cm w11)
    = (inr decode, w12).
Hypothesis first_read :
  subscript_int L output 0 (State w12 g) = (inr first, State w13 g, t_first).
Hypothesis decoded :
  lib_respond L (RCall decode [first] [("skip_special_tokens", PBool true)]) w13
    = (inr generated_text, w14).




(** C4.  The pipeline is built for, and the tokenizer and the model are
    loaded from, one and the same model identifier,
    "unsloth/DeepSeek-R1-Distill-Llama-8B": it is the [model] argument of
    the first request of [use_pipeline] and the only argument of both
    [from_pretrained] calls of [use_direct_model]. *)
Theorem runners_name_the_same_model (w : W) :
  (exists (a : result pyval) (rest : trace),
     events (use_pipeline L (State w g))
       = EPrint ("=== Pipeline-Ansatz ===" +:+ nl)
         :: EReq (RCall pipeline [PStr "text-generation"]
                    [("model", PStr model_id)]) a
         :: rest)
  /\ (exists (a : result pyval) (rest : trace),
       events (use_direct_model L (State w0 g))
         = EPrint ("=== Direkter Modell-Ansatz ===" +:+ nl)
           :: EReq (RGetAttr AutoTokenizer "from_pretrained") (inr load_tokenizer)
           :: EReq (RCall load_tokenizer [PStr model_id] []) (inr tokenizer)
           :: EReq (RGetAttr AutoModelForCausalLM "from_pretrained")
                   (inr load_model)
           :: EReq (RCall load_model [PStr model_id] []) a
           :: rest)
  /\ model_id = "unsloth/DeepSeek-R1-Distill-Llama-8B".
Proof.
  clear model_loaded prompt_encoded torch_module no_grad_found no_grad_made
    generate_found input_ids_read eos_read generated decode_found first_read
    decoded.
  unfold model_id in *.
  split; [|split; [|reflexivity]].
  - unfold_py. answer_by pipeline_function.
    split_answers L; eexists _, _; unfold events; cbn [snd]; tidy_trace.
  - unfold_py.
    answer_by tokenizer_class. answer_by tokenizer_loader.
    answer_by tokenizer_loaded. answer_by model_class. answer_by model_loader.
    split_answers L; eexists _, _; unfold events; cbn [snd]; tidy_trace.
Qed.

End DirectModel.



(** ** Laws of the monad *)

Section Laws.

Context {W : Type} (L : library W).


Lemma invoked_app (t1 t2 : trace) : invoked (t1 ++ t2) = invoked t1 ++ invoked t2.
Proof.
  induction t1 as [|ev t1 IH]; [reflexivity|].
  destruct ev; cbn; rewrite ?IH; reflexivity.
Qed.

Lemma append_assoc (a b c : string) : (a +:+ b) +:+ c = a +:+ (b +:+ c).
Proof.
  induction a as [|x a IH]; [reflexivity|].
  change (String x ((a +:+ b) +:+ c) = String x (a +:+ (b +:+ c))).
  now rewrite IH.
Qed.

Lemma stdout_app (t1 t2 : trace) : stdout (t1 ++ t2) = stdout t1 +:+ stdout t2.
Proof.
  induction t1 as [|ev t1 IH]; [reflexivity|].
  destruct ev; cbn [stdout app]; rewrite ?IH, ?append_assoc; reflexivity.
Qed.

Lemma propagates_ret {A} (a : A) : propagates (@ret W A a).
Proof. intros s r e []. Qed.

Lemma propagates_raise {A} (e : exn) : propagates (@raise W A e).
Proof. intros s r e' []. Qed.

Lemma propagates_ask (r : request) : propagates (ask L r).
Proof.
  intros s r' e. unfold ask, events, outcome.
  destruct (lib_respond L r (st_world s)) as [a w]. cbn.
  intros [H|[]]. now inversion H.
Qed.

Lemma propagates_print (args : list pyval) : propagates (print L args).
Proof. intros s r e [H|[]]. discriminate H. Qed.

Lemma propagates_load_global (name : string) : propagates (@load_global W name).
Proof.
  intros s r e. unfold load_global, events.
  destruct (st_globals s !! name); intros [].
Qed.

Lemma propagates_bind {A B} (c : M W A) (k : A -> M W B) :
  propagates c -> (forall a, propagates (k a)) -> propagates (bind c k).
Proof.
  intros Hc Hk s r e. specialize (Hc s r e). unfold bind, events, outcome in *.
  destruct (c s) as [[[e0|a] s1] t1]; cbn in *.
  { intros Hin. apply Hc in Hin. injection Hin as ->. reflexivity. }
  specialize (Hk a s1 r e). unfold events, outcome in Hk.
  destruct (k a s1) as [[r2 s2] t2]. cbn in *.
  intros Hin. apply in_app_or in Hin as [Hin|Hin]; [|now apply Hk].
  apply Hc in Hin. discriminate Hin.
Qed.

Lemma propagates_with_ctx {A} (cm : pyval) (body : M W A) :
  propagates body -> propagates (with_ctx L cm body).
Proof.
  intros Hb s r e. unfold with_ctx, events, outcome.
  set (s0 := State _ _).
  specialize (Hb s0 r e). unfold events, outcome in Hb.
  destruct (body s0) as [[r1 s1] t1]. cbn in *.
  intros [H|H]; [discriminate H|].
  apply in_app_or in H as [H|[H|[]]]; [now apply Hb | discriminate H].
Qed.

Lemma propagates_subscript_int (v : pyval) (i : Z) :
  propagates (subscript_int L v i).
Proof.
  destruct v; cbn;
    repeat match goal with |- context [match ?x with _ => _ end] => destruct x end;
    auto using @propagates_ret, @propagates_raise, propagates_ask.
Qed.

Lemma propagates_subscript_str (v : pyval) (k : string) :
  propagates (subscript_str L v k).
Proof.
  destruct v; cbn;
    repeat match goal with |- context [match ?x with _ => _ end] => destruct x end;
    auto using @propagates_ret, @propagates_raise, propagates_ask.
Qed.

Lemma plain_ret {A} (a : A) : plain (@ret W A a).
Proof. intros s. split; reflexivity. Qed.

Lemma plain_raise {A} (e : exn) : plain (@raise W A e).
Proof. intros s. split; reflexivity. Qed.

Lemma plain_ask (r : request) : plain (ask L r).
Proof.
  intros s. unfold ask, final, events.
  destruct (lib_respond L r (st_world s)) as [a w]. split; reflexivity.
Qed.

Lemma plain_print (args : list pyval) : plain (print L args).
Proof. intros s. split; reflexivity. Qed.

Lemma plain_load_global (name : string) : plain (@load_global W name).
Proof.
  intros s. unfold load_global, final, events.
  destruct (st_globals s !! name); split; reflexivity.
Qed.

Lemma plain_bind {A B} (c : M W A) (k : A -> M W B) :
  plain c -> (forall a, plain (k a)) -> plain (bind c k).
Proof.
  intros Hc Hk s. destruct (Hc s) as [Hg Hi].
  unfold bind, final, events in *.
  destruct (c s) as [[[e0|a] s1] t1]; cbn in *; [now split|].
  destruct (Hk a s1) as [Hg' Hi']. unfold final, events in *.
  destruct (k a s1) as [[r2 s2] t2]. cbn in *.
  split; [congruence|]. rewrite invoked_app, Hi, Hi'. reflexivity.
Qed.

Lemma plain_with_ctx {A} (cm : pyval) (body : M W A) :
  plain body -> plain (with_ctx L cm body).
Proof.
  intros Hb s. unfold with_ctx, final, events.
  set (s0 := State _ _).
  destruct (Hb s0) as [Hg Hi]. unfold final, events in *.
  destruct (body s0) as [[r1 s1] t1]. cbn in *.
  split; [exact Hg|]. rewrite invoked_app, Hi. reflexivity.
Qed.

Lemma plain_subscript_int (v : pyval) (i : Z) : plain (subscript_int L v i).
Proof.
  destruct v; cbn;
    repeat match goal with |- context [match ?x with _ => _ end] => destruct x end;
    auto using @plain_ret, @plain_raise, plain_ask.
Qed.

Lemma plain_subscript_str (v : pyval) (k : string) : plain (subscript_str L v k).
Proof.
  destruct v; cbn;
    repeat match goal with |- context [match ?x with _ => _ end] => destruct x end;
    auto using @plain_ret, @plain_raise, plain_ask.
Qed.

End Laws.

Create HintDb py discriminated.
#[export] Hint Resolve propagates_ret propagates_raise propagates_ask
  propagates_print propagates_load_global propagates_bind
  propagates_with_ctx propagates_subscript_int propagates_subscript_str
  plain_ret plain_raise plain_ask plain_print plain_load_global plain_bind
  plain_with_ctx plain_subscript_int plain_subscript_str : py.

Section Runners.

Context {W : Type} (L : library W).



(** C7.  Neither runner recovers from anything: an exception with which
    the library answers any request made inside [use_pipeline] or
    [use_direct_model] (construction, invocation, attribute or item access)
    is, unchanged, the outcome of the runner. *)
Theorem runner_propagates_library_exception
    (d : deffn) (s : state W) (r : request) (e : exn) :
  In (EReq r (inl e)) (events (body_of L d s)) ->
  outcome (body_of L d s) = inl e.
Proof.
  revert s r e. change (propagates (body_of L d)).
  destruct d; cbn [body_of]; [unfold use_pipeline | unfold use_direct_model];
    cbv zeta; auto 40 with py.
Qed.

End Runners.


Section EntryPoint.

Context {W : Type} (L : library W).



Variables (s s1 s2 : state W) (r1 r2 : result unit) (t1 t2 : trace).
Hypothesis pipeline_def :
  st_globals s !! "use_pipeline" = Some (PFunc UsePipeline).
Hypothesis direct_def :
  st_globals s !! "use_direct_model" = Some (PFunc UseDirectModel).
Hypothesis pipeline_run : use_pipeline L s = (r1, s1, t1).
Hypothesis direct_run : use_direct_model L s1 = (r2, s2, t2).




End EntryPoint.





(** The model cannot be loaded: the runner ends with that very exception. *)
Lemma runner_propagates_library_exception_witness :
  outcome (body_of (Stub.lib None (Some (Stub.OSError "no weights")))
             UseDirectModel (State 0%nat stub_loaded))
    = inl (Stub.OSError "no weights").
Proof.
  apply (runner_propagates_library_exception
           (Stub.lib None (Some (Stub.OSError "no weights")))
           UseDirectModel (State 0%nat stub_loaded)
           (RCall Stub.model_loader [PStr model_id] [])).
  vm_compute. do 4 right. left. reflexivity.
Defined.

(** ** The script from top to bottom, against the stand-in library *)

(** The imports and the two [def]s leave the globals as [stub_loaded]. *)
Example module_globals_after_import :
  st_globals (final (run_module (Stub.lib None None) Stub.as_import Stub.start))
    = stub_loaded.
Proof. reflexivity. Qed.

(** Run as a script, both runners are called and this is what is printed. *)
Example script_run :
  outcome (run_module (Stub.lib None None) Stub.as_script Stub.start) = inr tt
  /\ invoked (events (run_module (Stub.lib None None) Stub.as_script Stub.start))
     = [UsePipeline; UseDirectModel]
  /\ stdout (events (run_module (Stub.lib None None) Stub.as_script Stub.start))
     = "LLM-Beispiel mit DeepSeek-R1-Distill-Llama-8B" +:+ nl +:+ nl
       +:+ "=== Pipeline-Ansatz ===" +:+ nl
       +:+ "Ergebnis:" +:+ nl
       +:+ "I am a stand-in." +:+ nl
       +:+ nl +:+ nl
       +:+ "=== Direkter Modell-Ansatz ===" +:+ nl
       +:+ "Eingabe: Who are you?" +:+ nl
       +:+ "Generierte Antwort: I am a stand-in." +:+ nl.
Proof. repeat split; reflexivity. Qed.

Section Module.

Context {W : Type} (L : library W).

(** C8.  The argument vector and the environment play no part: started
    under the same [__name__] against the same library in the same state,
    the module makes the same requests, prints the same text and ends in
    the same way, whatever arguments and environment variables it is
    given. *)
Theorem arguments_are_ignored
    (name : string) (argv1 argv2 : list string)
    (environ1 environ2 : list (string * string)) (s : state W) :
  run_module L (Invocation name argv1 environ1) s
    = run_module L (Invocation name argv2 environ2) s
  /\ requests (events (run_module L (Invocation name argv1 environ1) s))
     = requests (events (run_module L (Invocation name argv2 environ2) s))
  /\ stdout (events (run_module L (Invocation name argv1 environ1) s))
     = stdout (events (run_module L (Invocation name argv2 environ2) s)).
Proof. repeat split. Qed.

(** C9.  Imported under any other name than "__main__", the module calls
    neither runner and prints nothing.  All it does is import: every event
    is an import request, no global outside the six names it binds is
    touched, and when the imports succeed both functions are defined. *)
Theorem import_runs_nothing (inv : invocation) (s : state W) :
  inv_name inv <> "__main__" ->
  invoked (events (run_module L inv s)) = []
  /\ stdout (events (run_module L inv s)) = ""
  /\ Forall (fun ev => is_import ev = true) (events (run_module L inv s))
  /\ (forall n : string, ~ In n module_names ->
        st_globals (final (run_module L inv s)) !! n = st_globals s !! n)
  /\ (outcome (run_module L inv s) = inr tt ->
        st_globals (final (run_module L inv s)) !! "use_pipeline"
          = Some (PFunc UsePipeline)
        /\ st_globals (final (run_module L inv s)) !! "use_direct_model"
           = Some (PFunc UseDirectModel)).
Proof.
  intros Hname. apply String.eqb_neq in Hname.
  unfold run_module, import_from, import_module, bind_names, store_global,
    ask, bind, ret.
  rewrite Hname. split_requests L;
    unfold outcome, final, events; cbn [fst snd app st_globals invoked stdout];
    (split; [reflexivity|]); (split; [reflexivity|]);
    (split; [repeat constructor|]);
    (split;
     [intros n Hn;
      repeat (rewrite lookup_insert_ne
                by (intros <-; apply Hn; unfold module_names; cbn; tauto));
      reflexivity
     |]);
    try (intros Hok; discriminate Hok).
  intros _. split.
  - rewrite lookup_insert_ne by discriminate.
    rewrite lookup_insert_ne by discriminate.
    rewrite lookup_insert_ne by discriminate.
    rewrite lookup_insert_ne by discriminate.
    apply lookup_insert_eq.
  - apply lookup_insert_eq.
Qed.

End Module.

(** The module imported by a test, against the stand-in library. *)
Lemma import_runs_nothing_witness :
  invoked (events (run_module (Stub.lib None None) Stub.as_import Stub.start))
    = []
  /\ stdout (events (run_module (Stub.lib None None) Stub.as_import Stub.start))
     = "".
Proof.
  assert (Hname : inv_name Stub.as_import <> "__main__") by discriminate.
  destruct (import_runs_nothing (Stub.lib None None) Stub.as_import Stub.start
              Hname) as (Hinvoked & Hstdout & _).
  split; assumption.
Defined.

(** Both runners against the stand-in library: one identifier throughout. *)
Lemma runners_name_the_same_model_witness :
  (exists (a : result pyval) (rest : trace),
     events (use_pipeline (Stub.lib None None) (State 0%nat stub_globals))
       = EPrint ("=== Pipeline-Ansatz ===" +:+ nl)
         :: EReq (RCall Stub.pipeline [PStr "text-generation"]
                    [("model", PStr model_id)]) a
         :: rest)
  /\ (exists (a : result pyval) (rest : trace),
       events (use_direct_model (Stub.lib None None) (State 0%nat stub_globals))
         = EPrint ("=== Direkter Modell-Ansatz ===" +:+ nl)
           :: EReq (RGetAttr Stub.AutoTokenizer "from_pretrained")
                   (inr Stub.tokenizer_loader)
           :: EReq (RCall Stub.tokenizer_loader [PStr model_id] [])
                   (inr Stub.tokenizer)
           :: EReq (RGetAttr Stub.AutoModelForCausalLM "from_pretrained")
                   (inr Stub.model_loader)
           :: EReq (RCall Stub.model_loader [PStr model_id] []) a
           :: rest)
  /\ model_id = "unsloth/DeepSeek-R1-Distill-Llama-8B".
Proof.
  exact (runners_name_the_same_model (Stub.lib None None) stub_globals
           0%nat 1%nat 2%nat 3%nat
           Stub.AutoTokenizer Stub.AutoModelForCausalLM
           Stub.tokenizer_loader Stub.model_loader Stub.tokenizer Stub.pipeline
           eq_refl eq_refl eq_refl eq_refl eq_refl eq_refl 0%nat).
Defined.



(** * Further properties *)

Section PipelineEdges.

Context {W : Type} (L : library W).

Variables (w0 w1 w2 : W) (g : gmap string pyval) (pipeline pipe : pyval).
Hypothesis pipeline_bound : g !! "pipeline" = Some pipeline.
Hypothesis pipeline_built :
  lib_respond L (RCall pipeline [PStr "text-generation"]
                   [("model", PStr model_id)]) w0 = (inr pipe, w1).

(** X1.  A pipeline that returns an empty list: the heading 'Ergebnis:' is
    already out when [result[0]] raises IndexError, and that exception is
    the outcome of [use_pipeline]. *)
Theorem use_pipeline_empty_result :
  lib_respond L (RCall pipe [messages] generation_parameters) w1
    = (inr (PList []), w2) ->
  use_pipeline L (State w0 g)
    = (inl (IndexError "list index out of range"), State w2 g,
       [EPrint ("=== Pipeline-Ansatz ===" +:+ nl);
        EReq (RCall pipeline [PStr "text-generation"] [("model", PStr model_id)])
             (inr pipe);
        EReq (RCall pipe [messages] generation_parameters) (inr (PList []));
        EPrint ("Ergebnis:" +:+ nl)]).
Proof.
  intros Hres.
  unfold model_id, messages, prompt, generation_parameters in *.
  unfold_py.
  answer_by pipeline_bound. answer_by pipeline_built. answer_by Hres.
  reflexivity.
Qed.

(** X2.  A first candidate that is a dict without the key
    'generated_text': [use_pipeline] raises KeyError for that key, again
    after the heading 'Ergebnis:' and before any text is printed. *)
Theorem use_pipeline_missing_key
    (entries : list (string * pyval)) (others : list pyval) :
  lib_respond L (RCall pipe [messages] generation_parameters) w1
    = (inr (PList (PDict entries :: others)), w2) ->
  dict_get "generated_text" entries = None ->
  use_pipeline L (State w0 g)
    = (inl (KeyError "'generated_text'"), State w2 g,
       [EPrint ("=== Pipeline-Ansatz ===" +:+ nl);
        EReq (RCall pipeline [PStr "text-generation"] [("model", PStr model_id)])
             (inr pipe);
        EReq (RCall pipe [messages] generation_parameters)
             (inr (PList (PDict entries :: others)));
        EPrint ("Ergebnis:" +:+ nl)]).
Proof.
  intros Hres Hkey.
  unfold model_id, messages, prompt, generation_parameters in *.
  unfold_py.
  answer_by pipeline_bound. answer_by pipeline_built. answer_by Hres.
  rewrite subscript_int_first. unfold ret.
  unfold subscript_str. rewrite Hkey. reflexivity.
Qed.

End PipelineEdges.

Lemma use_pipeline_empty_result_witness :
  use_pipeline (Odd.lib (PList [])) (State 0%nat stub_globals)
    = (inl (IndexError "list index out of range"), State 2%nat stub_globals,
       [EPrint ("=== Pipeline-Ansatz ===" +:+ nl);
        EReq (RCall Stub.pipeline [PStr "text-generation"]
                [("model", PStr model_id)]) (inr Stub.pipe);
        EReq (RCall Stub.pipe [messages] generation_parameters)
             (inr (PList []));
        EPrint ("Ergebnis:" +:+ nl)]).
Proof.
  exact (use_pipeline_empty_result (Odd.lib (PList [])) 0%nat 1%nat 2%nat
           stub_globals Stub.pipeline Stub.pipe eq_refl eq_refl eq_refl).
Defined.

Lemma use_pipeline_missing_key_witness :
  use_pipeline (Odd.lib (PList [PDict [("text", PStr "hello")]]))
      (State 0%nat stub_globals)
    = (inl (KeyError "'generated_text'"), State 2%nat stub_globals,
       [EPrint ("=== Pipeline-Ansatz ===" +:+ nl);
        EReq (RCall Stub.pipeline [PStr "text-generation"]
                [("model", PStr model_id)]) (inr Stub.pipe);
        EReq (RCall Stub.pipe [messages] generation_parameters)
             (inr (PList [PDict [("text", PStr "hello")]]));
        EPrint ("Ergebnis:" +:+ nl)]).
Proof.
  exact (use_pipeline_missing_key (Odd.lib (PList [PDict [("text", PStr "hello")]]))
           0%nat 1%nat 2%nat stub_globals Stub.pipeline Stub.pipe
           eq_refl eq_refl [("text", PStr "hello")] [] eq_refl eq_refl).
Defined.

Section EveryRun.

Context {W : Type} (L : library W).

(** A subscript asks the library at most once, and only for that item. *)
Lemma subscript_int_trace (v : pyval) (i : Z) (s : state W) :
  events (subscript_int L v i s) = []
  \/ exists a, events (subscript_int L v i s) = [EReq (RGetItem v (PInt i)) a].
Proof.
  destruct v; cbn;
    repeat match goal with
           | |- context [match ?x with _ => _ end] => destruct x
           end;
    try (left; reflexivity).
  right. unfold ask, events. destruct (lib_respond L _ _) as [a w].
  exists a. reflexivity.
Qed.

Lemma subscript_str_trace (v : pyval) (k : string) (s : state W) :
  events (subscript_str L v k s) = []
  \/ exists a, events (subscript_str L v k s) = [EReq (RGetItem v (PStr k)) a].
Proof.
  destruct v; cbn;
    repeat match goal with
           | |- context [match ?x with _ => _ end] => destruct x
           end;
    try (left; reflexivity).
  right. unfold ask, events. destruct (lib_respond L _ _) as [a w].
  exists a. reflexivity.
Qed.

(** Split on the next open step of a run; a subscript is split together
    with what it can have written to the trace. *)
Ltac split_step :=
  match goal with
  | |- context [lib_respond L ?r ?w] =>
      destruct (lib_respond L r w) as [[?|?] ?]
  | |- context [subscript_int L ?v ?i ?s] =>
      let H := fresh "Ht" in
      destruct (subscript_int_trace v i s) as [H | [? H]];
      destruct (subscript_int L v i s) as [[[?|?] ?] ?];
      unfold events in H; cbn [snd] in H; subst
  | |- context [subscript_str L ?v ?k ?s] =>
      let H := fresh "Ht" in
      destruct (subscript_str_trace v k s) as [H | [? H]];
      destruct (subscript_str L v k s) as [[[?|?] ?] ?];
      unfold events in H; cbn [snd] in H; subst
  | |- context [@lookup string pyval _ _ ?n ?g] =>
      destruct (@lookup string pyval _ _ n g)
  end.

Ltac every_run :=
  unfold_py;
  repeat (split_step; cbv beta iota zeta; cbn [st_world st_globals]);
  unfold outcome, events, final; cbn [fst snd].

(** X3.  However the library answers: when [use_pipeline] fails, no
    generated text has been printed; standard output holds the first
    heading alone, or the first heading and 'Ergebnis:'. *)
Theorem failed_pipeline_prints_headings_only (s : state W) (e : exn) :
  outcome (use_pipeline L s) = inl e ->
  stdout (events (use_pipeline L s)) = "=== Pipeline-Ansatz ===" +:+ nl
  \/ stdout (events (use_pipeline L s))
     = "=== Pipeline-Ansatz ===" +:+ nl +:+ "Ergebnis:" +:+ nl.
Proof.
  every_run; intros Hfail; try discriminate Hfail;
    first [left; reflexivity | right; reflexivity].
Qed.


(** X5.  The no-gradient context is always left: in every run of
    [use_direct_model], also one in which [generate] or a step around it
    raises, the contexts entered are the contexts left, and there is at
    most one. *)
Theorem no_grad_is_always_left (s : state W) :
  entered (events (use_direct_model L s))
    = exited (events (use_direct_model L s))
  /\ (length (entered (events (use_direct_model L s))) <= 1)%nat.
Proof.
  every_run; split; first [reflexivity | cbn; lia].
Qed.

(** X6.  Nothing is retried: whatever the library answers, [use_pipeline]
    calls into it at most twice (build the pipeline, run it) and
    [use_direct_model] at most six times (load tokenizer and model, encode,
    open the context, generate, decode). *)
Theorem runners_never_retry (s : state W) :
  (calls (events (use_pipeline L s)) <= 2)%nat
  /\ (calls (events (use_direct_model L s)) <= 6)%nat.
Proof.
  split; every_run; cbn; lia.
Qed.

End EveryRun.

(** A failing pipeline: only the heading is out. *)
Lemma failed_pipeline_prints_headings_only_witness :
  stdout (events (use_pipeline (Stub.lib (Some (Stub.OSError "offline")) None)
                    (State 0%nat stub_loaded)))
    = "=== Pipeline-Ansatz ===" +:+ nl
  \/ stdout (events (use_pipeline (Stub.lib (Some (Stub.OSError "offline")) None)
                       (State 0%nat stub_loaded)))
     = "=== Pipeline-Ansatz ===" +:+ nl +:+ "Ergebnis:" +:+ nl.
Proof.
  apply (failed_pipeline_prints_headings_only
           (Stub.lib (Some (Stub.OSError "offline")) None)
           (State 0%nat stub_loaded) (Stub.OSError "offline")).
  vm_compute. reflexivity.
Defined.


(** ** Invariants of every event *)

Section Always.

Context {W : Type} (L : library W) (P : event -> bool).

Lemma always_ret {A} (a : A) : always P (@ret W A a).
Proof. intros s. constructor. Qed.

Lemma always_raise {A} (e : exn) : always P (@raise W A e).
Proof. intros s. constructor. Qed.

Lemma always_load_global (name : string) : always P (@load_global W name).
Proof.
  intros s. unfold load_global, events.
  destruct (st_globals s !! name); constructor.
Qed.

Lemma always_ask (r : request) :
  (forall a, P (EReq r a) = true) -> always P (ask L r).
Proof.
  intros Hr s. unfold ask, events.
  destruct (lib_respond L r (st_world s)) as [a w]. cbn.
  repeat constructor. apply Hr.
Qed.

Lemma always_print (args : list pyval) :
  (forall text, P (EPrint text) = true) -> always P (print L args).
Proof. intros Hp s. repeat constructor. apply Hp. Qed.

Lemma always_tell (ev : event) : P ev = true -> always P (@tell W ev).
Proof. intros Hev s. repeat constructor. exact Hev. Qed.

Lemma always_bind {A B} (c : M W A) (k : A -> M W B) :
  always P c -> (forall a, always P (k a)) -> always P (bind c k).
Proof.
  intros Hc Hk s. specialize (Hc s). unfold bind, events in *.
  destruct (c s) as [[[e|a] s1] t1]; cbn in *; [exact Hc|].
  specialize (Hk a s1). unfold events in Hk.
  destruct (k a s1) as [[r2 s2] t2]. cbn in *.
  apply Forall_app. split; assumption.
Qed.

Lemma always_with_ctx {A} (cm : pyval) (body : M W A) :
  P (EEnter cm) = true -> P (EExit cm) = true ->
  always P body -> always P (with_ctx L cm body).
Proof.
  intros Hin Hout Hb s. unfold with_ctx, events.
  set (s0 := State _ _). specialize (Hb s0). unfold events in Hb.
  destruct (body s0) as [[r1 s1] t1]. cbn in *.
  constructor; [exact Hin|]. apply Forall_app. split; [exact Hb|].
  repeat constructor. exact Hout.
Qed.

Lemma always_try_except {A} (body : M W A) (handler : exn -> M W A) :
  always P body -> (forall e, always P (handler e)) ->
  always P (try_except body handler).
Proof.
  intros Hb Hh s. specialize (Hb s). unfold try_except, events in *.
  destruct (body s) as [[[e|a] s1] t1]; cbn in *; [|exact Hb].
  destruct (exn_is_Exception e); [|exact Hb].
  specialize (Hh e s1). unfold events in Hh.
  destruct (handler e s1) as [[r2 s2] t2]. cbn in *.
  apply Forall_app. split; assumption.
Qed.

Lemma always_subscript_int (v : pyval) (i : Z) :
  (forall a, P (EReq (RGetItem v (PInt i)) a) = true) ->
  always P (subscript_int L v i).
Proof.
  intros Hr s.
  destruct (subscript_int_trace L v i s) as [-> | [a ->]]; repeat constructor.
  apply Hr.
Qed.

Lemma always_subscript_str (v : pyval) (k : string) :
  (forall a, P (EReq (RGetItem v (PStr k)) a) = true) ->
  always P (subscript_str L v k).
Proof.
  intros Hr s.
  destruct (subscript_str_trace L v k s) as [-> | [a ->]]; repeat constructor.
  apply Hr.
Qed.

End Always.

(** Take a computation apart along its statements. *)
Ltac always_steps :=
  repeat first
    [ apply always_bind; [|intro]
    | apply always_try_except; [|intro]
    | apply always_with_ctx; [reflexivity | reflexivity |]
    | apply always_ask; intro; reflexivity
    | apply always_print; intro; reflexivity
    | apply always_tell; reflexivity
    | apply always_subscript_int; intro; reflexivity
    | apply always_subscript_str; intro; reflexivity
    | apply always_load_global
    | apply always_ret
    | apply always_raise ].

Section Reads.

Context {W : Type} (L : library W).

(** X7.  What a runner may ask of the library is fixed by its text: in no
    run does [use_pipeline] or [use_direct_model] import anything, call a
    function of the script, or read a library object elsewhere than at the
    attributes from_pretrained, no_grad, generate, eos_token_id, decode and
    the keys 0, 'generated_text', 'input_ids'. *)
Theorem runners_read_fixed_names (d : deffn) (s : state W) :
  Forall (fun ev => runner_event ev = true) (events (body_of L d s)).
Proof.
  revert s. change (always runner_event (body_of L d)).
  destruct d; cbn [body_of]; [unfold use_pipeline | unfold use_direct_model];
    cbv zeta; always_steps.
Qed.

Lemma runner_never_imports (d : deffn) : always no_import (body_of L d).
Proof.
  destruct d; cbn [body_of]; [unfold use_pipeline | unfold use_direct_model];
    cbv zeta; always_steps.
Qed.

Lemma call_global_never_imports (name : string) :
  always no_import (call_global L name).
Proof.
  unfold call_global. apply always_bind; [apply always_load_global|].
  intros f. destruct f; always_steps. apply runner_never_imports.
Qed.

Lemma entry_point_never_imports : always no_import (entry_point L).
Proof.
  unfold entry_point.
  apply always_bind; [always_steps | intros _].
  apply always_bind; [|intros _];
    (apply always_try_except;
     [apply call_global_never_imports | intros e; always_steps]).
Qed.

End Reads.

Section Boundaries.

Context {W : Type} (L : library W).






End Boundaries.



Section ModuleBody.

Context {W : Type} (L : library W).

Lemma no_import_not_import (t : trace) (ev : event) :
  Forall (fun ev => no_import ev = true) t -> In ev t -> is_import ev = true ->
  False.
Proof.
  intros Hall Hin Himp. rewrite Forall_forall in Hall.
  apply list_elem_of_In in Hin. apply Hall in Hin.
  unfold no_import in Hin. rewrite Himp in Hin. discriminate Hin.
Qed.

Ltac unfold_module :=
  unfold run_module, import_from, import_module, bind_names, store_global,
    ask, bind, ret.

(** X11.  The imports stand outside the failure boundaries: an import
    that fails, of transformers, of one of the three names taken from it or
    of torch, ends the module with that exception, whatever [__name__] is;
    by then nothing has been printed and no runner has been called. *)
Theorem failed_import_is_not_caught
    (inv : invocation) (s : state W) (r : request) (e : exn) :
  In (EReq r (inl e)) (events (run_module L inv s)) ->
  is_import (EReq r (inl e)) = true ->
  outcome (run_module L inv s) = inl e
  /\ stdout (events (run_module L inv s)) = ""
  /\ invoked (events (run_module L inv s)) = [].
Proof.
  unfold_module. split_requests L;
    try (unfold outcome, events; cbn [fst snd app In];
         intros Hin _;
         repeat (destruct Hin as [Hin|Hin]; [try discriminate Hin|]);
         [injection Hin as <- <-; repeat split; reflexivity | destruct Hin]).
  destruct (String.eqb (inv_name inv) "__main__").
  - match goal with
    | |- context [entry_point L ?st] =>
        pose proof (entry_point_never_imports L st) as Hnone;
        destruct (entry_point L st) as [[r' s'] t']
    end.
    unfold outcome, events in *. cbn [fst snd app In] in *.
    intros Hin Himp.
    repeat (destruct Hin as [Hin|Hin]; [discriminate Hin|]).
    destruct (no_import_not_import _ _ Hnone Hin Himp).
  - unfold outcome, events. cbn [fst snd app In].
    intros Hin _.
    repeat (destruct Hin as [Hin|Hin]; [discriminate Hin|]).
    destruct Hin.
Qed.

(** X12.  Run as a script with imports that succeed, the module is its
    six imports followed by the entry point, and the entry point starts
    with both runner names bound to the functions of the script and the
    imported names bound to what the imports returned. *)
Theorem script_reaches_entry_point
    (argv : list string) (environ : list (string * string))
    (g : gmap string pyval) (w0 w1 w2 w3 w4 w5 w6 : W)
    (transformers transformers' pipeline AutoTokenizer AutoModelForCausalLM
     torch : pyval) :
  lib_respond L (RImport "transformers") w0 = (inr transformers, w1) ->
  lib_respond L (RImportFrom transformers "pipeline") w1 = (inr pipeline, w2) ->
  lib_respond L (RImport "transformers") w2 = (inr transformers', w3) ->
  lib_respond L (RImportFrom transformers' "AutoTokenizer") w3
    = (inr AutoTokenizer, w4) ->
  lib_respond L (RImportFrom transformers' "AutoModelForCausalLM") w4
    = (inr AutoModelForCausalLM, w5) ->
  lib_respond L (RImport "torch") w5 = (inr torch, w6) ->
  run_module L (Invocation "__main__" argv environ) (State w0 g)
    = (outcome (entry_point L (State w6 (module_globals g pipeline AutoTokenizer
                                           AutoModelForCausalLM torch))),
       final (entry_point L (State w6 (module_globals g pipeline AutoTokenizer
                                         AutoModelForCausalLM torch))),
       [EReq (RImport "transformers") (inr transformers);
        EReq (RImportFrom transformers "pipeline") (inr pipeline);
        EReq (RImport "transformers") (inr transformers');
        EReq (RImportFrom transformers' "AutoTokenizer") (inr AutoTokenizer);
        EReq (RImportFrom transformers' "AutoModelForCausalLM")
             (inr AutoModelForCausalLM);
        EReq (RImport "torch") (inr torch)]
       ++ events (entry_point L (State w6 (module_globals g pipeline
                                             AutoTokenizer AutoModelForCausalLM
                                             torch))))
  /\ module_globals g pipeline AutoTokenizer AutoModelForCausalLM torch
       !! "use_pipeline" = Some (PFunc UsePipeline)
  /\ module_globals g pipeline AutoTokenizer AutoModelForCausalLM torch
       !! "use_direct_model" = Some (PFunc UseDirectModel).
Proof.
  intros H1 H2 H3 H4 H5 H6. split; [|split].
  - unfold_module. cbn [inv_name].
    answer_by H1. answer_by H2. answer_by H3. answer_by H4. answer_by H5.
    answer_by H6.
    change (String.eqb "__main__" "__main__") with true. cbv iota.
    unfold module_globals, outcome, final, events.
    destruct (entry_point L _) as [[r' s'] t']. reflexivity.
  - unfold module_globals.
    rewrite lookup_insert_ne by discriminate.
    rewrite lookup_insert_ne by discriminate.
    rewrite lookup_insert_ne by discriminate.
    rewrite lookup_insert_ne by discriminate.
    apply lookup_insert_eq.
  - unfold module_globals. apply lookup_insert_eq.
Qed.


End ModuleBody.

(** torch is missing: the script ends with ModuleNotFoundError, silently. *)
Lemma failed_import_is_not_caught_witness :
  outcome (run_module Odd.without_torch Stub.as_script Stub.start)
    = inl (Odd.ModuleNotFoundError "torch")
  /\ stdout (events (run_module Odd.without_torch Stub.as_script Stub.start))
     = ""
  /\ invoked (events (run_module Odd.without_torch Stub.as_script Stub.start))
     = [].
Proof.
  apply (failed_import_is_not_caught Odd.without_torch Stub.as_script
           Stub.start (RImport "torch") (Odd.ModuleNotFoundError "torch")).
  - vm_compute. do 5 right. left. reflexivity.
  - reflexivity.
Defined.

(** The script against the stand-in library: six imports, then the entry
    point with everything bound. *)
Lemma script_reaches_entry_point_witness :
  run_module (Stub.lib None None) Stub.as_script Stub.start
    = (outcome (entry_point (Stub.lib None None) (State 6%nat stub_loaded)),
       final (entry_point (Stub.lib None None) (State 6%nat stub_loaded)),
       [EReq (RImport "transformers") (inr Stub.transformers);
        EReq (RImportFrom Stub.transformers "pipeline") (inr Stub.pipeline);
        EReq (RImport "transformers") (inr Stub.transformers);
        EReq (RImportFrom Stub.transformers "AutoTokenizer")
             (inr Stub.AutoTokenizer);
        EReq (RImportFrom Stub.transformers "AutoModelForCausalLM")
             (inr Stub.AutoModelForCausalLM);
        EReq (RImport "torch") (inr Stub.torch)]
       ++ events (entry_point (Stub.lib None None) (State 6%nat stub_loaded))).
Proof.
  exact (proj1 (script_reaches_entry_point (Stub.lib None None)
                  ["improved_llm_example.py"] [] ∅
                  0%nat 1%nat 2%nat 3%nat 4%nat 5%nat 6%nat
                  Stub.transformers Stub.transformers Stub.pipeline
                  Stub.AutoTokenizer Stub.AutoModelForCausalLM Stub.torch
                  eq_refl eq_refl eq_refl eq_refl eq_refl eq_refl)).
Defined.


Section EncodingEdge.

Context {W : Type} (L : library W).

Variables (g : gmap string pyval) (w0 w1 w2 w3 w4 w5 w6 w7 w8 : W).
Variables (AutoTokenizer AutoModelForCausalLM torch : pyval).
Variables (load_tokenizer load_model tokenizer model : pyval).
Variables (no_grad cm generate : pyval) (entries : list (string * pyval)).

Hypothesis tokenizer_class : g !! "AutoTokenizer" = Some AutoTokenizer.
Hypothesis tokenizer_loader :
  lib_respond L (RGetAttr AutoTokenizer "from_pretrained") w0
    = (inr load_tokenizer, w1).
Hypothesis tokenizer_loaded :
  lib_respond L (RCall load_tokenizer [PStr model_id] []) w1
    = (inr tokenizer, w2).
Hypothesis model_class :
  g !! "AutoModelForCausalLM" = Some AutoModelForCausalLM.
Hypothesis model_loader :
  lib_respond L (RGetAttr AutoModelForCausalLM "from_pretrained") w2
    = (inr load_model, w3).
Hypothesis model_loaded :
  lib_respond L (RCall load_model [PStr model_id] []) w3 = (inr model, w4).
Hypothesis prompt_encoded :
  lib_respond L (RCall tokenizer [PStr prompt] [("return_tensors", PStr "pt")]) w4
    = (inr (PDict entries), w5).
Hypothesis torch_module : g !! "torch" = Some torch.
Hypothesis no_grad_found :
  lib_respond L (RGetAttr torch "no_grad") w5 = (inr no_grad, w6).
Hypothesis no_grad_made :
  lib_respond L (RCall no_grad [] []) w6 = (inr cm, w7).
Hypothesis generate_found :
  lib_respond L (RGetAttr model "generate") (lib_enter L cm w7)
    = (inr generate, w8).


End EncodingEdge.

